(** * Image-Optical-Character-Recognition: the upload-and-extract pipeline

    A shallow embedding of [src/app.ts]: the multer upload configuration
    ([storage], [fileFilter], [limits]), the OCR adapter
    [extractTextFromImage], the [POST /extract-text] handler, the
    [GET /api] handler and the error middleware, followed by the
    properties of the request pipeline.

    JavaScript effects are modelled by a state-and-exception monad.  The
    state a request can touch is split in two: [Sys], the process-wide part
    (temporary directory contents, console), and [Res], the response object
    of the request being served. *)

From Stdlib Require Import ZArith String List Bool Lia.
From stdpp Require Import gmap strings.
Import ListNotations.

Local Open Scope Z_scope.
Local Open Scope string_scope.

(** ** Values *)

(** JSON bodies handed to [res.send] / [res.json].  Every body of the
    program is a flat object literal; it keeps its properties in the order
    of the source. *)
Inductive jvalue : Type :=
| JBool (b : bool)
| JNum (n : Z)
| JStr (s : string).

Definition json : Type := list (string * jvalue).

(** A thrown JavaScript value; only its [message] is ever read
    (error middleware, [console.error]). *)
Record Error : Type := mkError { message : string }.

(** The bytes of an uploaded file: their number and a tag that identifies
    the content, so that two uploads can be told apart on disk. *)
Record Blob : Type := mkBlob { byteLength : Z; payload : string }.

(** The [file] part of an incoming multipart request. *)
Record Part : Type := mkPart {
  originalname : string;
  mimetype : string;
  stream : Blob }.

(** [Express.Multer.File] as produced by disk storage. *)
Record File : Type := mkFile {
  file_originalname : string;
  file_mimetype : string;
  destination : string;
  filename : string;
  path : string;
  size : Z }.

(** A request: the multipart part it carries in field [file], if any, and
    [req.file], which is undefined until the upload middleware sets it. *)
Record Request : Type := mkRequest {
  part : option Part;
  file : option File }.

Definition incoming (p : option Part) : Request :=
  {| part := p; file := None |}.

Record Response : Type := mkResponse { status : Z; body : json }.

(** ** State *)

Record Sys : Type := mkSys {
  fs : gmap string Blob;
  console : list string }.

Record Res : Type := mkRes {
  statusCode : Z;
  sent : list Response }.

Record World : Type := mkWorld { sys : Sys; res : Res }.

(** A new response object: status 200, nothing sent. *)
Definition fresh_res : Res := {| statusCode := 200; sent := [] |}.

Definition boot (s : Sys) : World := {| sys := s; res := fresh_res |}.

(** ** The effect monad: state [S] with thrown [Error]s *)

Module Eff.

Definition ST (S A : Type) : Type := S -> (Error + A) * S.

Definition ret {S A} (a : A) : ST S A := fun s => (inr a, s).

Definition bind {S A B} (m : ST S A) (k : A -> ST S B) : ST S B :=
  fun s =>
    match m s with
    | (inr a, s') => k a s'
    | (inl e, s') => (inl e, s')
    end.

Definition throw {S A} (e : Error) : ST S A := fun s => (inl e, s).

(** [try { m } catch (e) { h e }]: effects of [m] before the throw stay. *)
Definition try_catch {S A} (m : ST S A) (h : Error -> ST S A) : ST S A :=
  fun s =>
    match m s with
    | (inl e, s') => h e s'
    | r => r
    end.

Definition modify {S} (f : S -> S) : ST S unit := fun s => (inr tt, f s).

Definition gets {S A} (f : S -> A) : ST S A := fun s => (inr (f s), s).

(** Run a computation on the process-wide state from inside a request. *)
Definition lift {A} (m : ST Sys A) : ST World A :=
  fun w =>
    match m (sys w) with
    | (r, s') => (r, {| sys := s'; res := res w |})
    end.

Fixpoint for_each {S A} (f : A -> ST S unit) (l : list A) : ST S unit :=
  match l with
  | [] => ret tt
  | a :: l' => bind (f a) (fun _ => for_each f l')
  end.

End Eff.

Import Eff.

Declare Scope eff_scope.
Delimit Scope eff_scope with eff.
Notation "'let*' x ':=' m 'in' k" := (bind m (fun x => k))
  (at level 10, x name, m at level 100, k at level 200) : eff_scope.
Notation "m ';;' k" := (bind m (fun _ => k))
  (at level 100, k at level 200, right associativity) : eff_scope.
Local Open Scope eff_scope.

(** ** Console and response primitives *)

Definition console_log (m : string) : ST Sys unit :=
  modify (fun s => {| fs := fs s; console := (console s ++ [m])%list |}).

(** [console.error(label, ...)]: the label and the error's message. *)
Definition console_error (label : string) (detail : string) : ST Sys unit :=
  modify (fun s =>
    {| fs := fs s; console := (console s ++ [label +:+ " " +:+ detail])%list |}).

(** [res.status(n)] *)
Definition res_status (n : Z) : ST World unit :=
  modify (fun w =>
    {| sys := sys w; res := {| statusCode := n; sent := sent (res w) |} |}).

(** [res.send(b)] / [res.json(b)]: emits one response with the current
    status code. *)
Definition res_send (b : json) : ST World unit :=
  modify (fun w =>
    {| sys := sys w;
       res := {| statusCode := statusCode (res w);
                 sent := (sent (res w) ++
                          [ {| status := statusCode (res w); body := b |} ])%list |} |}).

(** ** The upload middleware (multer)

    [multer] is a dependency of the program, not part of it.  This module
    states the behaviour of [multer(options).single('file')] with disk
    storage that the program relies on: the file filter is asked first; a
    file the filter declines is skipped and the request goes on without
    [req.file]; an accepted file is streamed to
    [path.join(destination, filename)]; a stream longer than
    [limits.fileSize] aborts the request with the library's
    [LIMIT_FILE_SIZE] error, the partly written file being unlinked; an
    error given to a callback aborts the request with that error.  Aborting
    is [next(err)], modelled as a throw. *)

Module Multer.

Definition Callback (A R : Type) : Type := option Error -> A -> R.

Record DiskStorage : Type := {
  getDestination : forall R, Request -> Part -> Callback string R -> R;
  getFilename : forall R, Request -> Part -> Callback string R -> R }.

Record Options : Type := {
  opt_storage : DiskStorage;
  opt_fileSize : Z;
  opt_fileFilter : forall R, Request -> Part -> Callback bool R -> R }.

Definition LIMIT_FILE_SIZE : Error := {| message := "File too large" |}.

Definition write (p : string) (b : Blob) : ST Sys unit :=
  modify (fun s => {| fs := <[p := b]> (fs s); console := console s |}).

Definition unlink (p : string) : ST Sys unit :=
  modify (fun s => {| fs := delete p (fs s); console := console s |}).

Section WithPath.

(** node's [path.join] *)
Variable path_join : string -> string -> string.

Definition handleFile (st : DiskStorage) (limit : Z)
    (req : Request) (p : Part) : ST Sys File :=
  getDestination st _ req p (fun err dest =>
    match err with
    | Some e => throw e
    | None =>
      getFilename st _ req p (fun err name =>
        match err with
        | Some e => throw e
        | None =>
          let finalPath := path_join dest name in
          if (limit <? byteLength (stream p))%Z
          then unlink finalPath ;; throw LIMIT_FILE_SIZE
          else
            write finalPath (stream p) ;;
            ret {| file_originalname := originalname p;
                   file_mimetype := mimetype p;
                   destination := dest;
                   filename := name;
                   path := finalPath;
                   size := byteLength (stream p) |}
        end)
    end).

Definition single (o : Options) (req : Request) : ST Sys Request :=
  match part req with
  | None => ret req
  | Some p =>
    opt_fileFilter o _ req p (fun err includeFile =>
      match err with
      | Some e => throw e
      | None =>
        if includeFile
        then
          let* f := handleFile (opt_storage o) (opt_fileSize o) req p in
          ret {| part := part req; file := Some f |}
        else ret req
      end)
  end.

End WithPath.

End Multer.

(** ** External services *)

(** What one call of [Tesseract.recognize] does: the progress messages it
    hands to the logger, then the recognized text or a rejection. *)
Record Recognition : Type := mkRecognition {
  progress : list string;
  outcome : Error + string }.

(** The part of an axios response the program reads. *)
Record AxiosResponse : Type := mkAxiosResponse { ax_status : Z }.

(** The value of [extractTextFromImage]: [string | false]. *)
Inductive TextOrFalse : Type :=
| Text (s : string)
| JsFalse.

(** JavaScript truthiness on [string | false]: [false] and the empty
    string are falsy. *)
Definition truthy (v : TextOrFalse) : bool :=
  match v with
  | Text "" => false
  | Text _ => true
  | JsFalse => false
  end.

Definition to_jvalue (v : TextOrFalse) : jvalue :=
  match v with
  | Text s => JStr s
  | JsFalse => JBool false
  end.

(** [Array.prototype.includes] on strings *)
Definition includes (l : list string) (x : string) : bool :=
  existsb (String.eqb x) l.

(** ** The program *)

Section App.

(** [os.tmpdir()] *)
Variable tempDir : string.
(** node's [path.join] *)
Variable path_join : string -> string -> string.
(** The OCR engine, run on a path of the disk with a language. *)
Variable recognize : gmap string Blob -> string -> string -> Recognition.
(** The outbound HTTP client. *)
Variable axios_get : string -> Error + AxiosResponse.

Definition storage : Multer.DiskStorage :=
  {| Multer.getDestination := fun R req file cb => cb None tempDir;
     Multer.getFilename := fun R req file cb => cb None (originalname file) |}.

Definition allowedTypes : list string := ["image/jpeg"; "image/png"].

Definition fileFilter {R} (req : Request) (file : Part)
    (cb : Multer.Callback bool R) : R :=
  if includes allowedTypes (mimetype file)
  then cb None true
  else cb None false.

Definition upload : Multer.Options :=
  {| Multer.opt_storage := storage;
     Multer.opt_fileSize := 5 * 1024 * 1024;
     Multer.opt_fileFilter := @fileFilter |}.

Definition baseURL : string := "https://httpbin.org".

(** [await Tesseract.recognize(imagePath, lang, {logger})] *)
Definition Tesseract_recognize (imagePath lang : string)
    (logger : string -> ST Sys unit) : ST Sys string :=
  let* disk := gets fs in
  let r := recognize disk imagePath lang in
  for_each logger (progress r) ;;
  match outcome r with
  | inl e => throw e
  | inr text => ret text
  end.

Definition extractTextFromImage (imagePath : string) : ST Sys TextOrFalse :=
  try_catch
    (let* text := Tesseract_recognize imagePath "eng" console_log in
     ret (Text text))
    (fun error =>
       console_error "Error during OCR processing:" (message error) ;;
       ret JsFalse).

Definition no_file_body : json :=
  [("success", JBool false);
   ("message", JStr "No file uploaded. Only jpg and png types accepted")].

Definition unknown_error_body : json :=
  [("success", JBool false); ("message", JStr "Unknown error occured")].

Definition success_body (extractedText : TextOrFalse) : json :=
  [("success", JBool true);
   ("message", JStr "Image text extracted successfully");
   ("data", to_jvalue extractedText)].

(** The handler of [POST /extract-text], with the adapter it awaits as a
    parameter so that an adapter that throws can be considered too. *)
Definition extract_text_handler_with
    (adapter : string -> ST Sys TextOrFalse) (req : Request) : ST World unit :=
  match file req with
  | None =>
    res_status 400 ;; res_send no_file_body
  | Some f =>
    let filePath := path f in
    try_catch
      (let* extractedText := lift (adapter filePath) in
       if negb (truthy extractedText)
       then res_status 400 ;; res_send unknown_error_body
       else res_send (success_body extractedText))
      (fun e => res_status 400 ;; res_send unknown_error_body)
  end.

Definition extract_text_handler : Request -> ST World unit :=
  extract_text_handler_with extractTextFromImage.

Definition esc : string := String (Ascii.ascii_of_nat 27) "".

(** The last [app.use]: the error-handling middleware. *)
Definition error_middleware (err : Error) : ST World unit :=
  lift (console_log (esc +:+ "[31m" +:+ message err +:+ esc +:+ "][0m]" +:+ " ")) ;;
  res_status 500 ;;
  res_send [("success", JBool false); ("status", JNum 500);
            ("message", JStr (message err))].

(** [app.post('/extract-text', upload.single('file'), handler)] followed
    by the error middleware, which receives what the upload middleware
    passes to [next] and what the handler throws. *)
Definition post_extract_text_with
    (adapter : string -> ST Sys TextOrFalse) (req : Request) : ST World unit :=
  try_catch
    (let* req' := lift (Multer.single path_join upload req) in
     extract_text_handler_with adapter req')
    error_middleware.

Definition post_extract_text : Request -> ST World unit :=
  post_extract_text_with extractTextFromImage.

(** [await axios.get(url)] *)
Definition axios_get_await (url : string) : ST World AxiosResponse :=
  match axios_get url with
  | inl e => throw e
  | inr r => ret r
  end.

(** The handler of [GET /api]. *)
Definition get_api : ST World unit :=
  try_catch
    (let* result := axios_get_await baseURL in
     res_send [("message", JStr "Demo API called (httpbin.org)");
               ("data", JNum (ax_status result))])
    (fun error =>
       lift (console_error "Error calling external API:" (message error)) ;;
       res_status 500 ;;
       res_send [("error", JStr "Failed to call external API")]).

(** What a request run from a fresh response object sends, and the state
    it leaves. *)
Definition responses (m : ST World unit) (s : Sys) : list Response :=
  sent (res (snd (m (boot s)))).

Definition disk_after (m : ST World unit) (s : Sys) : gmap string Blob :=
  fs (sys (snd (m (boot s)))).

(** Where disk storage puts part [p], the [req.file] it yields for it and
    the process state once it is written. *)
Definition stored_path (p : Part) : string :=
  path_join tempDir (originalname p).

Definition stored_file (p : Part) : File :=
  {| file_originalname := originalname p;
     file_mimetype := mimetype p;
     destination := tempDir;
     filename := originalname p;
     path := stored_path p;
     size := byteLength (stream p) |}.

Definition stored (p : Part) (s : Sys) : Sys :=
  {| fs := <[stored_path p := stream p]> (fs s); console := console s |}.

End App.

(** ** The remaining handlers *)

(** The handler of [GET /]. *)
Definition get_root : ST World unit :=
  res_send [("message", JStr "API is Live!")].

(** The [app.use] after the routes: the 404 middleware. *)
Definition not_found : ST World unit :=
  res_status 404 ;;
  res_send [("success", JBool false);
            ("message", JStr "API route does not exist")].

(** [await] of a promise that is settled with [r]. *)
Definition await {S A} (r : Error + A) : ST S A :=
  match r with
  | inl e => throw e
  | inr a => ret a
  end.

Section Ping.

(** The [data] of an axios response. *)
Variable Data : Type.
(** The outbound HTTP client, as far as [data] goes. *)
Variable axios_get_data : string -> Error + Data.
(** The evaluation of [data.message] inside the template literal: the
    text it is turned into, or the error thrown when [data] has no
    properties to read (null, undefined). *)
Variable message_text : Data -> Error + string.

Definition pingSelf : ST Sys bool :=
  try_catch
    (let* data := await (axios_get_data "http://localhost:5000") in
     let* text := await (message_text data) in
     console_log ("Server pinged successfully: " +:+ text) ;;
     ret true)
    (fun e =>
       console_log ("Error pinging server: " +:+ message e) ;;
       ret false).

End Ping.

(** ** Vocabulary of the properties *)

(** The MIME types the upload accepts. *)
Definition accepted (p : Part) : Prop :=
  mimetype p = "image/jpeg" \/ mimetype p = "image/png".

(** What [fileFilter] tells its callback. *)
Definition filter_verdict (p : Part) : option Error * bool :=
  fileFilter (incoming (Some p)) p (fun err includeFile => (err, includeFile)).

Definition lookup_prop (k : string) (b : json) : option jvalue :=
  match find (fun kv => String.eqb (fst kv) k) b with
  | Some kv => Some (snd kv)
  | None => None
  end.

(** A structured JSON error envelope: an object with [success: false] and
    a string [message]. *)
Definition error_envelope (b : json) : bool :=
  match lookup_prop "success" b, lookup_prop "message" b with
  | Some (JBool false), Some (JStr _) => true
  | _, _ => false
  end.

(** A rejection below the application: nothing that is sent is a
    structured JSON error envelope. *)
Definition transport_level (rs : list Response) : Prop :=
  Forall (fun r => error_envelope (body r) = false) rs.

(** The upload's temporary file is gone from disk [d]. *)
Definition temp_file_removed (d : gmap string Blob) (f : File) : Prop :=
  d !! path f = None.

(** The run that sends exactly one response, with status [st] and body
    [b], from a fresh response object, and ends normally in state [s]. *)
Definition reply (st : Z) (b : json) (s : Sys) : (Error + unit) * World :=
  (inr tt,
   {| sys := s;
      res := {| statusCode := st;
                sent := [ {| status := st; body := b |} ] |} |}).

(** Run from a fresh response object in any process state, [m] ends
    normally having sent exactly one response, with a status among
    [codes]. *)
Definition answers_once (m : ST World unit) (codes : list Z) : Prop :=
  forall s : Sys,
    fst (m (boot s)) = inr tt /\
    exists r, sent (res (snd (m (boot s)))) = [r] /\ In (status r) codes.

(** The three bodies of [POST /extract-text], spelled out. *)
Definition ok_response (text : string) : Response :=
  {| status := 200;
     body := [("success", JBool true);
              ("message", JStr "Image text extracted successfully");
              ("data", JStr text)] |}.

Definition unknown_error_response : Response :=
  {| status := 400;
     body := [("success", JBool false);
              ("message", JStr "Unknown error occured")] |}.

Definition no_file_response : Response :=
  {| status := 400;
     body := [("success", JBool false);
              ("message",
               JStr "No file uploaded. Only jpg and png types accepted")] |}.

Definition too_large_response : Response :=
  {| status := 500;
     body := [("success", JBool false); ("status", JNum 500);
              ("message", JStr "File too large")] |}.

(** The process state a request leaves behind. *)
Definition sys_after (m : ST World unit) (s : Sys) : Sys :=
  sys (snd (m (boot s))).

(** ** A sample environment, for concrete runs *)

Module Sample.

Definition join (d f : string) : string := d +:+ "/" +:+ f.

(** An engine that reports two progress messages and then gives [t]. *)
Definition engine (t : Error + string)
    : gmap string Blob -> string -> string -> Recognition :=
  fun _ _ _ => {| progress := ["loading"; "recognizing"]; outcome := t |}.

Definition photo : Part :=
  {| originalname := "photo.png"; mimetype := "image/png";
     stream := {| byteLength := 1024; payload := "first" |} |}.

(** Another upload under the same client-supplied name. *)
Definition photo' : Part :=
  {| originalname := "photo.png"; mimetype := "image/jpeg";
     stream := {| byteLength := 2048; payload := "second" |} |}.

Definition notes : Part :=
  {| originalname := "notes.txt"; mimetype := "text/plain";
     stream := {| byteLength := 12; payload := "text" |} |}.

(** One byte over the limit. *)
Definition huge : Part :=
  {| originalname := "huge.png"; mimetype := "image/png";
     stream := {| byteLength := 5242881; payload := "big" |} |}.

Definition empty_sys : Sys := {| fs := ∅; console := [] |}.

Definition corrupt : Error := {| message := "Error attempting to read image." |}.

Definition refused : Error := {| message := "connect ECONNREFUSED" |}.

End Sample.

(** * Properties *)

(** ** The monad *)

Lemma bind_ret_l {S A B} (a : A) (k : A -> ST S B) (s : S) :
  bind (ret a) k s = k a s.
Proof. reflexivity. Qed.

Lemma bind_throw {S A B} (e : Error) (k : A -> ST S B) (s : S) :
  bind (throw e) k s = (inl e, s).
Proof. reflexivity. Qed.

Lemma try_catch_throw {S A} (e : Error) (h : Error -> ST S A) (s : S) :
  try_catch (throw e) h s = h e s.
Proof. reflexivity. Qed.

(** The logger only appends to the console. *)
Lemma for_each_console_log (l : list string) (s : Sys) :
  for_each console_log l s =
  (inr tt, {| fs := fs s; console := (console s ++ l)%list |}).
Proof.
  revert s. induction l as [|m l IH]; intros s.
  - cbn. rewrite app_nil_r. by destruct s.
  - cbn [for_each]. unfold bind at 1. cbn. rewrite IH. cbn.
    by rewrite <- app_assoc.
Qed.

(** ** The file filter *)

Lemma includes_allowedTypes (m : string) :
  includes allowedTypes m = true <->
  m = "image/jpeg" \/ m = "image/png".
Proof.
  unfold includes, allowedTypes. cbn [existsb].
  rewrite !orb_true_iff, !String.eqb_eq. intuition discriminate.
Qed.

Lemma includes_accepted (p : Part) :
  accepted p -> includes allowedTypes (mimetype p) = true.
Proof. intros H. by apply includes_allowedTypes. Qed.

Lemma includes_declined (p : Part) :
  ~ accepted p -> includes allowedTypes (mimetype p) = false.
Proof.
  intros H. destruct (includes allowedTypes (mimetype p)) eqn:E; [|done].
  apply includes_allowedTypes in E. contradiction.
Qed.

(** ** The upload middleware on the program's options *)

Section Upload.

#[local] Arguments includes : simpl never.

Variable tempDir : string.
Variable path_join : string -> string -> string.

Lemma single_no_part (s : Sys) :
  Multer.single path_join (upload tempDir) (incoming None) s = (inr (incoming None), s).
Proof. reflexivity. Qed.

Lemma single_declined (p : Part) (s : Sys) :
  ~ accepted p ->
  Multer.single path_join (upload tempDir) (incoming (Some p)) s = (inr (incoming (Some p)), s).
Proof.
  intros H. unfold Multer.single, upload, fileFilter. cbn.
  by rewrite (includes_declined p H).
Qed.

Lemma single_stored (p : Part) (s : Sys) :
  accepted p ->
  byteLength (stream p) <= 5 * 1024 * 1024 ->
  Multer.single path_join (upload tempDir) (incoming (Some p)) s =
  (inr {| part := Some p; file := Some (stored_file tempDir path_join p) |},
   stored tempDir path_join p s).
Proof.
  intros H Hsz. unfold Multer.single, upload, fileFilter. cbn.
  rewrite (includes_accepted p H).
  unfold Multer.handleFile. cbn.
  destruct (Z.ltb_spec (5 * 1024 * 1024) (byteLength (stream p))) as [Hlt|_]; [lia|].
  reflexivity.
Qed.

Lemma single_too_large (p : Part) (s : Sys) :
  accepted p ->
  5 * 1024 * 1024 < byteLength (stream p) ->
  fst (Multer.single path_join (upload tempDir) (incoming (Some p)) s) = inl Multer.LIMIT_FILE_SIZE.
Proof.
  intros H Hsz. unfold Multer.single, upload, fileFilter. cbn.
  rewrite (includes_accepted p H).
  unfold Multer.handleFile. cbn.
  destruct (Z.ltb_spec (5 * 1024 * 1024) (byteLength (stream p))) as [_|Hle]; [|lia].
  reflexivity.
Qed.

End Upload.

(** ** The extraction adapter *)

(** The adapter never throws: it returns the text, or [false] after
    logging the engine's error; the disk is left as it was. *)
Lemma extractTextFromImage_run recognize (imagePath : string) (s : Sys) :
  extractTextFromImage recognize imagePath s =
  let r := recognize (fs s) imagePath "eng" in
  match outcome r with
  | inr text =>
      (inr (Text text),
       {| fs := fs s; console := (console s ++ progress r)%list |})
  | inl e =>
      (inr JsFalse,
       {| fs := fs s;
          console := ((console s ++ progress r) ++
                      ["Error during OCR processing:" +:+ " " +:+ message e])%list |})
  end.
Proof.
  unfold extractTextFromImage, Tesseract_recognize, try_catch.
  unfold bind at 1. unfold bind at 1. cbn [gets].
  unfold bind at 1. rewrite for_each_console_log.
  destruct (outcome (recognize (fs s) imagePath "eng")) as [e|text]; reflexivity.
Qed.

Lemma extractTextFromImage_disk recognize (imagePath : string) (s : Sys) :
  fs (snd (extractTextFromImage recognize imagePath s)) = fs s.
Proof.
  rewrite extractTextFromImage_run. cbv zeta.
  by destruct (outcome (recognize (fs s) imagePath "eng")).
Qed.

(** ** The handler, run from a fresh response object *)

Lemma handler_no_file adapter (req : Request) (s : Sys) :
  file req = None ->
  extract_text_handler_with adapter req (boot s) = reply 400 no_file_body s.
Proof. intros H. unfold extract_text_handler_with. by rewrite H. Qed.

Lemma handler_with_file adapter (req : Request) (f : File) (s : Sys) :
  file req = Some f ->
  extract_text_handler_with adapter req (boot s) =
  match adapter (path f) s with
  | (inr v, s') =>
      if truthy v then reply 200 (success_body v) s'
      else reply 400 unknown_error_body s'
  | (inl _, s') => reply 400 unknown_error_body s'
  end.
Proof.
  intros H. unfold extract_text_handler_with. rewrite H.
  unfold try_catch, bind at 1, lift. cbn [boot sys res].
  destruct (adapter (path f) s) as [[e|v] s']; [reflexivity|].
  destruct (truthy v); reflexivity.
Qed.

(** The whole route for an upload that the middleware stores. *)
Lemma route_stored tempDir path_join adapter (p : Part) (s : Sys) :
  accepted p ->
  byteLength (stream p) <= 5 * 1024 * 1024 ->
  post_extract_text_with tempDir path_join adapter (incoming (Some p)) (boot s) =
  match adapter (stored_path tempDir path_join p) (stored tempDir path_join p s) with
  | (inr v, s') =>
      if truthy v then reply 200 (success_body v) s'
      else reply 400 unknown_error_body s'
  | (inl _, s') => reply 400 unknown_error_body s'
  end.
Proof.
  intros Ha Hsz. unfold post_extract_text_with, try_catch.
  unfold bind at 1, lift. cbn [boot sys res].
  rewrite (single_stored tempDir path_join p s Ha Hsz).
  change {| sys := stored tempDir path_join p s; res := fresh_res |}
    with (boot (stored tempDir path_join p s)).
  rewrite (handler_with_file adapter _ (stored_file tempDir path_join p)); [|reflexivity].
  cbn [stored_file path].
  destruct (adapter _ _) as [[e|v] s']; [reflexivity|].
  destruct (truthy v); reflexivity.
Qed.

(** The whole route for a request on which the middleware attaches no file. *)
Lemma route_no_file tempDir path_join adapter (req : Request) (s : Sys) :
  file req = None ->
  Multer.single path_join (upload tempDir) req s = (inr req, s) ->
  post_extract_text_with tempDir path_join adapter req (boot s) =
  reply 400 no_file_body s.
Proof.
  intros Hf Hs. unfold post_extract_text_with, try_catch.
  unfold bind at 1, lift. cbn [boot sys res]. rewrite Hs.
  change {| sys := s; res := fresh_res |} with (boot s).
  by rewrite handler_no_file.
Qed.

(** The whole route for an upload that the middleware aborts as too large:
    the error middleware answers, the handler is not run. *)
Lemma route_too_large tempDir path_join adapter (p : Part) (s : Sys) :
  accepted p ->
  5 * 1024 * 1024 < byteLength (stream p) ->
  responses (post_extract_text_with tempDir path_join adapter (incoming (Some p))) s =
  [ {| status := 500;
       body := [("success", JBool false); ("status", JNum 500);
                ("message", JStr "File too large")] |} ].
Proof.
  intros Ha Hsz.
  pose proof (single_too_large tempDir path_join p s Ha Hsz) as H.
  unfold responses, post_extract_text_with, try_catch.
  unfold bind at 1, lift. cbn [boot sys res].
  destruct (Multer.single path_join (upload tempDir) (incoming (Some p)) s)
    as [r s'].
  cbn [fst] in H. subst r. reflexivity.
Qed.

(** * The claims *)

(** ** C1: success with the recognized text *)

(** For every non-empty recognized text the route answers 200 with the
    success envelope carrying that text. *)
Lemma nonempty_text_answered_200 tempDir path_join recognize
    (p : Part) (s : Sys) (text : string) :
  accepted p ->
  byteLength (stream p) <= 5 * 1024 * 1024 ->
  outcome (recognize (fs (stored tempDir path_join p s))
             (stored_path tempDir path_join p) "eng") = inr text ->
  text <> "" ->
  responses (post_extract_text tempDir path_join recognize (incoming (Some p))) s =
  [ {| status := 200;
       body := [("success", JBool true);
                ("message", JStr "Image text extracted successfully");
                ("data", JStr text)] |} ].
Proof.
  intros Ha Hsz Ho Hne. unfold responses, post_extract_text.
  rewrite route_stored by assumption.
  rewrite extractTextFromImage_run. cbv zeta. rewrite Ho.
  destruct text as [|c text]; [contradiction|]. reflexivity.
Qed.

(** C1, at the failing input: an accepted upload on which the engine
    succeeds and recognizes the empty string is not answered with 200 and
    the success envelope; the handler takes the empty string for the
    failure sentinel and answers 400 "Unknown error occured". *)
Theorem empty_text_answered_400 :
  fst (extractTextFromImage (Sample.engine (inr ""))
         (stored_path "/tmp" Sample.join Sample.photo)
         (stored "/tmp" Sample.join Sample.photo Sample.empty_sys)) = inr (Text "") /\
  responses
    (post_extract_text "/tmp" Sample.join (Sample.engine (inr ""))
       (incoming (Some Sample.photo)))
    Sample.empty_sys =
  [ {| status := 400;
       body := [("success", JBool false);
                ("message", JStr "Unknown error occured")] |} ].
Proof. split; reflexivity. Qed.

(** ** C2: adapter failure and thrown errors *)

(** C2: for an upload of an accepted type of at most 5 MiB, whether the
    adapter reports failure or an error is thrown while the handler awaits
    it, the route answers 400 with the one envelope
    {success:false, message:"Unknown error occured"}, and no response
    has status 500. *)
Theorem failure_and_throw_answered_400 tempDir path_join
    (adapter : string -> ST Sys TextOrFalse) (p : Part) (s : Sys) :
  accepted p ->
  byteLength (stream p) <= 5 * 1024 * 1024 ->
  (let r := fst (adapter (stored_path tempDir path_join p)
                   (stored tempDir path_join p s)) in
   r = inr JsFalse \/ exists e, r = inl e) ->
  let rs :=
    responses (post_extract_text_with tempDir path_join adapter (incoming (Some p))) s in
  rs = [ {| status := 400;
            body := [("success", JBool false);
                     ("message", JStr "Unknown error occured")] |} ] /\
  Forall (fun r => status r <> 500) rs.
Proof.
  intros Ha Hsz Hr rs.
  assert (E : rs = [ {| status := 400; body := unknown_error_body |} ]).
  { subst rs. unfold responses. rewrite route_stored by assumption.
    cbv zeta in Hr.
    destruct (adapter _ _) as [[e|v] s']; cbn [fst] in Hr.
    - reflexivity.
    - destruct Hr as [Hr|[e Hr]]; [|discriminate].
      injection Hr as ->. reflexivity. }
  split; [exact E|]. rewrite E. repeat constructor. cbn. lia.
Qed.

Lemma failure_and_throw_answered_400_witness :
  accepted Sample.photo /\
  (let rs :=
     responses
       (post_extract_text_with "/tmp" Sample.join
          (extractTextFromImage (Sample.engine (inl Sample.corrupt)))
          (incoming (Some Sample.photo)))
       Sample.empty_sys in
   rs = [ {| status := 400;
             body := [("success", JBool false);
                      ("message", JStr "Unknown error occured")] |} ] /\
   Forall (fun r => status r <> 500) rs).
Proof.
  split; [right; reflexivity|].
  apply (failure_and_throw_answered_400 "/tmp" Sample.join
           (extractTextFromImage (Sample.engine (inl Sample.corrupt)))
           Sample.photo Sample.empty_sys).
  - right; reflexivity.
  - cbn. lia.
  - left. reflexivity.
Defined.

(** The same with an adapter that throws. *)
Lemma throwing_adapter_answered_400 :
  responses
    (post_extract_text_with "/tmp" Sample.join (fun _ => throw Sample.corrupt)
       (incoming (Some Sample.photo)))
    Sample.empty_sys =
  [ {| status := 400; body := unknown_error_body |} ].
Proof. reflexivity. Qed.

(** ** C3: the adapter turns engine failures into a sentinel *)

(** C3: whenever the engine fails, the adapter does not throw; it
    returns the sentinel [false]. *)
Theorem engine_failure_returns_false recognize (imagePath : string)
    (s : Sys) (e : Error) :
  outcome (recognize (fs s) imagePath "eng") = inl e ->
  fst (extractTextFromImage recognize imagePath s) = inr JsFalse.
Proof.
  intros H. rewrite extractTextFromImage_run. cbv zeta. by rewrite H.
Qed.

Lemma engine_failure_returns_false_witness :
  outcome (Sample.engine (inl Sample.corrupt)
             (fs Sample.empty_sys) "/tmp/photo.png" "eng") = inl Sample.corrupt /\
  fst (extractTextFromImage (Sample.engine (inl Sample.corrupt))
         "/tmp/photo.png" Sample.empty_sys) = inr JsFalse.
Proof.
  split; [reflexivity|].
  apply (engine_failure_returns_false (Sample.engine (inl Sample.corrupt))
           "/tmp/photo.png" Sample.empty_sys Sample.corrupt).
  reflexivity.
Defined.

(** ** C4: no file attached *)

(** C4: when [req.file] is absent once the upload middleware is done, the
    handler sends one response: 400 with
    {success:false, message:"No file uploaded. Only jpg and png types accepted"}. *)
Theorem no_file_answered_400 (adapter : string -> ST Sys TextOrFalse)
    (req : Request) (s : Sys) :
  file req = None ->
  responses (extract_text_handler_with adapter req) s =
  [ {| status := 400;
       body := [("success", JBool false);
                ("message",
                 JStr "No file uploaded. Only jpg and png types accepted")] |} ].
Proof.
  intros H. unfold responses. by rewrite handler_no_file.
Qed.

Lemma no_file_answered_400_witness :
  file (incoming None) = None /\
  responses
    (extract_text_handler_with
       (extractTextFromImage (Sample.engine (inr "HELLO"))) (incoming None))
    Sample.empty_sys =
  [ {| status := 400;
       body := [("success", JBool false);
                ("message",
                 JStr "No file uploaded. Only jpg and png types accepted")] |} ].
Proof.
  split; [reflexivity|].
  apply (no_file_answered_400
           (extractTextFromImage (Sample.engine (inr "HELLO")))
           (incoming None) Sample.empty_sys).
  reflexivity.
Defined.

(** ** C5: the file filter *)

(** C5: the filter accepts a file exactly when its MIME type is
    image/jpeg or image/png; a file of any other type is declined without
    an error, the upload middleware passes the request on unchanged, with
    no file attached and the disk untouched, and the route answers 400
    with the "No file uploaded" envelope. *)
Theorem filter_accepts_exactly_jpeg_png tempDir path_join
    (adapter : string -> ST Sys TextOrFalse) (p : Part) (s : Sys) :
  (filter_verdict p = (None, true) <->
   mimetype p = "image/jpeg" \/ mimetype p = "image/png") /\
  (mimetype p <> "image/jpeg" ->
   mimetype p <> "image/png" ->
   filter_verdict p = (None, false) /\
   Multer.single path_join (upload tempDir) (incoming (Some p)) s =
     (inr {| part := Some p; file := None |}, s) /\
   responses (post_extract_text_with tempDir path_join adapter (incoming (Some p))) s =
   [ {| status := 400;
        body := [("success", JBool false);
                 ("message",
                  JStr "No file uploaded. Only jpg and png types accepted")] |} ]).
Proof.
  split.
  - unfold filter_verdict, fileFilter. rewrite <- includes_allowedTypes.
    destruct (includes allowedTypes (mimetype p)); split; congruence.
  - intros Hj Hp.
    assert (Hd : ~ accepted p) by (intros [?|?]; contradiction).
    split; [|split].
    + unfold filter_verdict, fileFilter. by rewrite (includes_declined p Hd).
    + apply (single_declined tempDir path_join p s Hd).
    + unfold responses. rewrite route_no_file; [reflexivity..|].
      apply (single_declined tempDir path_join p s Hd).
Qed.

Lemma filter_accepts_exactly_jpeg_png_witness :
  mimetype Sample.notes <> "image/jpeg" /\
  mimetype Sample.notes <> "image/png" /\
  filter_verdict Sample.notes = (None, false) /\
  responses
    (post_extract_text "/tmp" Sample.join (Sample.engine (inr "HELLO"))
       (incoming (Some Sample.notes)))
    Sample.empty_sys =
  [ {| status := 400;
       body := [("success", JBool false);
                ("message",
                 JStr "No file uploaded. Only jpg and png types accepted")] |} ].
Proof.
  assert (Hj : mimetype Sample.notes <> "image/jpeg") by discriminate.
  assert (Hp : mimetype Sample.notes <> "image/png") by discriminate.
  destruct (filter_accepts_exactly_jpeg_png "/tmp" Sample.join
              (extractTextFromImage (Sample.engine (inr "HELLO")))
              Sample.notes Sample.empty_sys) as [_ H].
  destruct (H Hj Hp) as (Hv & _ & Hr).
  repeat split; assumption.
Defined.

(** ** C6: uploads over 5 MiB *)

(** C6 as stated fails: the response to an accepted upload one byte over
    the limit is a structured JSON error envelope, sent by the error
    middleware. *)
Lemma too_large_not_transport_level :
  ~ transport_level
      (responses
         (post_extract_text "/tmp" Sample.join (Sample.engine (inr "HELLO"))
            (incoming (Some Sample.huge)))
         Sample.empty_sys).
Proof.
  unfold transport_level. intros H. inversion H as [|r rs Hr _]; subst.
  vm_compute in Hr. discriminate.
Qed.

(** C6, amended: for an upload of an accepted type over 5 MiB the upload
    middleware aborts the request with the library's file-size error, the
    handler is not run whatever the adapter, and the error middleware
    answers 500 with the JSON envelope
    {success:false, status:500, message:<the error's message>}. *)
Theorem too_large_answered_500 tempDir path_join
    (adapter : string -> ST Sys TextOrFalse) (p : Part) (s : Sys) :
  accepted p ->
  5 * 1024 * 1024 < byteLength (stream p) ->
  fst (Multer.single path_join (upload tempDir) (incoming (Some p)) s) =
    inl Multer.LIMIT_FILE_SIZE /\
  responses (post_extract_text_with tempDir path_join adapter (incoming (Some p))) s =
  [ {| status := 500;
       body := [("success", JBool false); ("status", JNum 500);
                ("message", JStr (message Multer.LIMIT_FILE_SIZE))] |} ].
Proof.
  intros Ha Hsz. split.
  - by apply single_too_large.
  - by apply route_too_large.
Qed.

Lemma too_large_answered_500_witness :
  accepted Sample.huge /\
  5 * 1024 * 1024 < byteLength (stream Sample.huge) /\
  responses
    (post_extract_text "/tmp" Sample.join (Sample.engine (inr "HELLO"))
       (incoming (Some Sample.huge)))
    Sample.empty_sys =
  [ {| status := 500;
       body := [("success", JBool false); ("status", JNum 500);
                ("message", JStr "File too large")] |} ].
Proof.
  assert (Ha : accepted Sample.huge) by (right; reflexivity).
  assert (Hsz : 5 * 1024 * 1024 < byteLength (stream Sample.huge))
    by (cbn; lia).
  split; [exact Ha|]. split; [exact Hsz|].
  apply (proj2 (too_large_answered_500 "/tmp" Sample.join
             (extractTextFromImage (Sample.engine (inr "HELLO")))
           Sample.huge Sample.empty_sys Ha Hsz)).
Defined.

(** An upload over the limit whose type the filter declines is not
    aborted: it is dropped like any other declined file. *)
Lemma too_large_declined_reaches_handler :
  responses
    (post_extract_text "/tmp" Sample.join (Sample.engine (inr "HELLO"))
       (incoming (Some {| originalname := "dump.bin";
                          mimetype := "application/octet-stream";
                          stream := {| byteLength := 5242881;
                                       payload := "big" |} |})))
    Sample.empty_sys =
  [ {| status := 400; body := no_file_body |} ].
Proof. reflexivity. Qed.

(** ** C7: where an accepted upload is stored *)

(** C7: an accepted upload is written to the path made of the one
    temporary directory and its original client-supplied name; two
    uploads with the same name get the same path, and the second
    replaces the first on disk. *)
Theorem same_name_same_path tempDir path_join (p q : Part) (s : Sys) :
  accepted p -> accepted q ->
  byteLength (stream p) <= 5 * 1024 * 1024 ->
  byteLength (stream q) <= 5 * 1024 * 1024 ->
  originalname p = originalname q ->
  exists fp fq s1 s2,
    Multer.single path_join (upload tempDir) (incoming (Some p)) s =
      (inr {| part := Some p; file := Some fp |}, s1) /\
    Multer.single path_join (upload tempDir) (incoming (Some q)) s1 =
      (inr {| part := Some q; file := Some fq |}, s2) /\
    destination fp = tempDir /\ filename fp = originalname p /\
    destination fq = tempDir /\ filename fq = originalname q /\
    path fp = path_join tempDir (originalname p) /\
    path fq = path fp /\
    fs s1 !! path fp = Some (stream p) /\
    fs s2 !! path fp = Some (stream q).
Proof.
  intros Hp Hq Hsp Hsq Hn.
  exists (stored_file tempDir path_join p), (stored_file tempDir path_join q),
    (stored tempDir path_join p s),
    (stored tempDir path_join q (stored tempDir path_join p s)).
  split; [by apply single_stored|].
  split; [by apply single_stored|].
  cbn [stored_file destination filename path stored fs].
  unfold stored_path. rewrite <- Hn.
  repeat split; try reflexivity; apply lookup_insert_eq.
Qed.

Lemma same_name_same_path_witness :
  originalname Sample.photo = originalname Sample.photo' /\
  exists fp fq s1 s2,
    Multer.single Sample.join (upload "/tmp") (incoming (Some Sample.photo))
      Sample.empty_sys =
      (inr {| part := Some Sample.photo; file := Some fp |}, s1) /\
    Multer.single Sample.join (upload "/tmp") (incoming (Some Sample.photo')) s1 =
      (inr {| part := Some Sample.photo'; file := Some fq |}, s2) /\
    destination fp = "/tmp" /\ filename fp = originalname Sample.photo /\
    destination fq = "/tmp" /\ filename fq = originalname Sample.photo' /\
    path fp = Sample.join "/tmp" (originalname Sample.photo) /\
    path fq = path fp /\
    fs s1 !! path fp = Some (stream Sample.photo) /\
    fs s2 !! path fp = Some (stream Sample.photo').
Proof.
  split; [reflexivity|].
  apply (same_name_same_path "/tmp" Sample.join Sample.photo Sample.photo'
           Sample.empty_sys).
  - right; reflexivity.
  - left; reflexivity.
  - cbn; lia.
  - cbn; lia.
  - reflexivity.
Defined.

(** ** C8: the temporary file after the response *)

(** C8 as stated fails: after a request that was answered 200, the
    upload's temporary file is still on disk. *)
Lemma temp_file_left_behind :
  responses
    (post_extract_text "/tmp" Sample.join (Sample.engine (inr "HELLO"))
       (incoming (Some Sample.photo)))
    Sample.empty_sys =
  [ {| status := 200; body := success_body (Text "HELLO") |} ] /\
  ~ temp_file_removed
      (disk_after
         (post_extract_text "/tmp" Sample.join (Sample.engine (inr "HELLO"))
            (incoming (Some Sample.photo)))
         Sample.empty_sys)
      (stored_file "/tmp" Sample.join Sample.photo).
Proof.
  split; [reflexivity|].
  unfold temp_file_removed, disk_after, post_extract_text.
  rewrite route_stored; [|right; reflexivity|cbn; lia].
  rewrite extractTextFromImage_run. cbn -[lookup insert].
  rewrite lookup_insert_eq. discriminate.
Qed.

(** C8, amended: the handler removes nothing.  On each of its exit paths
    the disk is as the upload middleware left it, so after a request whose
    upload was stored the temporary file is still there, holding the
    uploaded bytes. *)
Theorem handler_keeps_temp_file tempDir path_join recognize
    (req : Request) (p : Part) (s : Sys) :
  fs (sys (snd (extract_text_handler recognize req (boot s)))) = fs s /\
  (accepted p ->
   byteLength (stream p) <= 5 * 1024 * 1024 ->
   disk_after (post_extract_text tempDir path_join recognize (incoming (Some p))) s
     !! path (stored_file tempDir path_join p) = Some (stream p)).
Proof.
  split.
  - unfold extract_text_handler. destruct (file req) as [f|] eqn:Hf.
    + rewrite (handler_with_file _ req f s Hf).
      pose proof (extractTextFromImage_disk recognize (path f) s) as Hd.
      destruct (extractTextFromImage recognize (path f) s) as [[e|v] s'];
        cbn [snd] in Hd; [exact Hd|].
      destruct (truthy v); exact Hd.
    + by rewrite handler_no_file.
  - intros Ha Hsz. unfold disk_after, post_extract_text.
    rewrite route_stored by assumption.
    pose proof (extractTextFromImage_disk recognize
                  (stored_path tempDir path_join p)
                  (stored tempDir path_join p s)) as Hd.
    destruct (extractTextFromImage recognize _ _) as [[e|v] s'];
      cbn [snd] in Hd.
    + cbn [reply snd sys]. rewrite Hd. apply lookup_insert_eq.
    + destruct (truthy v); cbn [reply snd sys]; rewrite Hd;
        apply lookup_insert_eq.
Qed.

Lemma handler_keeps_temp_file_witness :
  accepted Sample.photo /\
  disk_after
    (post_extract_text "/tmp" Sample.join (Sample.engine (inl Sample.corrupt))
       (incoming (Some Sample.photo)))
    Sample.empty_sys
    !! path (stored_file "/tmp" Sample.join Sample.photo) =
  Some (stream Sample.photo).
Proof.
  assert (Ha : accepted Sample.photo) by (right; reflexivity).
  split; [exact Ha|].
  apply (proj2 (handler_keeps_temp_file "/tmp" Sample.join
                  (Sample.engine (inl Sample.corrupt))
                  (incoming None) Sample.photo Sample.empty_sys) Ha).
  cbn; lia.
Defined.

(** ** C9: the demo endpoint *)

(** C9: [GET /api] answers 200 with the message and the upstream status
    code as a number when the outbound call to the fixed service succeeds,
    and 500 with {error:"Failed to call external API"} when it fails. *)
Theorem get_api_answers axios_get (s : Sys) :
  responses (get_api axios_get) s =
  match axios_get "https://httpbin.org" with
  | inr result =>
      [ {| status := 200;
           body := [("message", JStr "Demo API called (httpbin.org)");
                    ("data", JNum (ax_status result))] |} ]
  | inl _ =>
      [ {| status := 500;
           body := [("error", JStr "Failed to call external API")] |} ]
  end.
Proof.
  unfold responses, get_api, try_catch, bind at 1, axios_get_await, baseURL.
  destruct (axios_get "https://httpbin.org") as [e|r]; reflexivity.
Qed.

(** ** C10: the handler's responses *)

(** C10: whatever the request and whatever the adapter does, the handler
    ends normally having sent exactly one response, which is the 400
    "No file uploaded" envelope, the 400 "Unknown error occured" envelope,
    or 200 with the success envelope carrying a text. *)
Theorem handler_sends_one_of_three (adapter : string -> ST Sys TextOrFalse)
    (req : Request) (s : Sys) :
  fst (extract_text_handler_with adapter req (boot s)) = inr tt /\
  exists r,
    responses (extract_text_handler_with adapter req) s = [r] /\
    (r = {| status := 400;
            body := [("success", JBool false);
                     ("message",
                      JStr "No file uploaded. Only jpg and png types accepted")] |} \/
     r = {| status := 400;
            body := [("success", JBool false);
                     ("message", JStr "Unknown error occured")] |} \/
     exists text,
       r = {| status := 200;
              body := [("success", JBool true);
                       ("message", JStr "Image text extracted successfully");
                       ("data", JStr text)] |}).
Proof.
  unfold responses. destruct (file req) as [f|] eqn:Hf.
  - rewrite (handler_with_file adapter req f s Hf).
    destruct (adapter (path f) s) as [[e|v] s'].
    + split; [reflexivity|]. eexists; split; [reflexivity|]. by right; left.
    + destruct v as [text|].
      * destruct text as [|c text].
        -- split; [reflexivity|]. eexists; split; [reflexivity|].
           by right; left.
        -- split; [reflexivity|]. eexists; split; [reflexivity|].
           right; right. by eexists.
      * split; [reflexivity|]. eexists; split; [reflexivity|]. by right; left.
  - rewrite (handler_no_file adapter req s Hf).
    split; [reflexivity|]. eexists; split; [reflexivity|]. by left.
Qed.

(** The route as a whole also sends exactly one response: besides the
    handler's three, the only other one is the error middleware's answer
    to an accepted upload over the size limit. *)
Lemma route_sends_one tempDir path_join recognize (req_part : option Part)
    (s : Sys) :
  exists r,
    responses (post_extract_text tempDir path_join recognize (incoming req_part)) s
      = [r] /\
    (status r = 200 \/ status r = 400 \/
     (status r = 500 /\ exists p, req_part = Some p /\ accepted p /\
                                  5 * 1024 * 1024 < byteLength (stream p))).
Proof.
  unfold responses, post_extract_text. destruct req_part as [p|].
  - destruct (includes allowedTypes (mimetype p)) eqn:Hi.
    + apply includes_allowedTypes in Hi.
      destruct (Z.lt_ge_cases (5 * 1024 * 1024) (byteLength (stream p)))
        as [Hsz|Hsz].
      * pose proof (route_too_large tempDir path_join
                      (extractTextFromImage recognize) p s Hi Hsz) as Hr.
        unfold responses in Hr. rewrite Hr. eexists; split; [reflexivity|].
        right; right. split; [reflexivity|]. by exists p.
      * rewrite route_stored by assumption.
        destruct (extractTextFromImage recognize _ _) as [[e|v] s'].
        -- eexists; split; [reflexivity|]. by right; left.
        -- destruct (truthy v); eexists; (split; [reflexivity|]);
             [by left | by right; left].
    + rewrite route_no_file; [|reflexivity|].
      * eexists; split; [reflexivity|]. by right; left.
      * apply single_declined. intros Ha.
        apply includes_allowedTypes in Ha. congruence.
  - rewrite route_no_file; [|reflexivity..].
    eexists; split; [reflexivity|]. by right; left.
Qed.

(** [GET /api] on a refused connection. *)
Example get_api_refused :
  responses (get_api (fun _ => inl Sample.refused)) Sample.empty_sys =
  [ {| status := 500; body := [("error", JStr "Failed to call external API")] |} ].
Proof. reflexivity. Qed.

(** * Further properties of the program *)

(** ** The run of [POST /extract-text], case by case *)

(** What the upload middleware does with an accepted file over the limit:
    it aborts, and nothing is left at the file's path. *)
Lemma single_too_large_run tempDir path_join (p : Part) (s : Sys) :
  includes allowedTypes (mimetype p) = true ->
  (5 * 1024 * 1024 <? byteLength (stream p))%Z = true ->
  Multer.single path_join (upload tempDir) (incoming (Some p)) s =
  (inl Multer.LIMIT_FILE_SIZE,
   {| fs := delete (stored_path tempDir path_join p) (fs s);
      console := console s |}).
Proof.
  intros Hi Hlt. unfold Multer.single, upload, fileFilter.
  cbn [part incoming Multer.opt_fileFilter]. rewrite Hi.
  unfold Multer.handleFile.
  cbn [Multer.opt_storage Multer.opt_fileSize storage
       Multer.getDestination Multer.getFilename].
  rewrite Hlt. reflexivity.
Qed.

Lemma route_run tempDir path_join recognize (req_part : option Part) (s : Sys) :
  post_extract_text tempDir path_join recognize (incoming req_part) (boot s) =
  match req_part with
  | None => reply 400 no_file_body s
  | Some p =>
    if includes allowedTypes (mimetype p) then
      if (5 * 1024 * 1024 <? byteLength (stream p))%Z then
        (inr tt,
         {| sys :=
              {| fs := delete (stored_path tempDir path_join p) (fs s);
                 console :=
                   (console s ++
                    [esc +:+ "[31m" +:+ "File too large" +:+ esc +:+ "][0m]" +:+ " "])%list |};
            res := {| statusCode := 500; sent := [too_large_response] |} |})
      else
        let r := recognize (fs (stored tempDir path_join p s))
                   (stored_path tempDir path_join p) "eng" in
        match outcome r with
        | inr text =>
            let s' := {| fs := fs (stored tempDir path_join p s);
                         console := (console s ++ progress r)%list |} in
            if truthy (Text text)
            then reply 200 (success_body (Text text)) s'
            else reply 400 unknown_error_body s'
        | inl e =>
            reply 400 unknown_error_body
              {| fs := fs (stored tempDir path_join p s);
                 console :=
                   ((console s ++ progress r) ++
                    ["Error during OCR processing:" +:+ " " +:+ message e])%list |}
        end
    else reply 400 no_file_body s
  end.
Proof.
  unfold post_extract_text. destruct req_part as [p|].
  - destruct (includes allowedTypes (mimetype p)) eqn:Hi.
    + destruct (5 * 1024 * 1024 <? byteLength (stream p))%Z eqn:Hlt.
      * unfold post_extract_text_with, try_catch, bind at 1, lift.
        cbn [boot sys res].
        rewrite (single_too_large_run tempDir path_join p s Hi Hlt).
        reflexivity.
      * apply includes_allowedTypes in Hi. apply Z.ltb_ge in Hlt.
        rewrite route_stored by assumption.
        rewrite extractTextFromImage_run. cbv zeta.
        destruct (outcome _) as [e|text]; reflexivity.
    + apply route_no_file; [reflexivity|].
      apply single_declined. intros Ha.
      apply includes_allowedTypes in Ha. congruence.
  - apply route_no_file; reflexivity.
Qed.

Lemma route_responses tempDir path_join recognize (req_part : option Part)
    (s : Sys) :
  responses (post_extract_text tempDir path_join recognize (incoming req_part)) s =
  match req_part with
  | None => [no_file_response]
  | Some p =>
    if includes allowedTypes (mimetype p) then
      if (5 * 1024 * 1024 <? byteLength (stream p))%Z then [too_large_response]
      else
        match outcome (recognize (fs (stored tempDir path_join p s))
                         (stored_path tempDir path_join p) "eng") with
        | inr "" => [unknown_error_response]
        | inr text => [ok_response text]
        | inl _ => [unknown_error_response]
        end
    else [no_file_response]
  end.
Proof.
  unfold responses. rewrite route_run. destruct req_part as [p|]; [|reflexivity].
  destruct (includes allowedTypes (mimetype p)); [|reflexivity].
  destruct (5 * 1024 * 1024 <? byteLength (stream p))%Z; [reflexivity|].
  cbv zeta. destruct (outcome _) as [e|[|c text]]; reflexivity.
Qed.

Lemma route_disk tempDir path_join recognize (req_part : option Part) (s : Sys) :
  disk_after (post_extract_text tempDir path_join recognize (incoming req_part)) s =
  match req_part with
  | None => fs s
  | Some p =>
    if includes allowedTypes (mimetype p) then
      if (5 * 1024 * 1024 <? byteLength (stream p))%Z
      then delete (stored_path tempDir path_join p) (fs s)
      else <[stored_path tempDir path_join p := stream p]> (fs s)
    else fs s
  end.
Proof.
  unfold disk_after. rewrite route_run. destruct req_part as [p|]; [|reflexivity].
  destruct (includes allowedTypes (mimetype p)); [|reflexivity].
  destruct (5 * 1024 * 1024 <? byteLength (stream p))%Z; [reflexivity|].
  cbv zeta. destruct (outcome _) as [e|text]; [reflexivity|].
  destruct (truthy (Text text)); reflexivity.
Qed.

(** Case analysis on a part: declined, over the limit, or stored. *)
Lemma part_cases (p : Part) :
  (includes allowedTypes (mimetype p) = false /\ ~ accepted p) \/
  (includes allowedTypes (mimetype p) = true /\ accepted p /\
   (5 * 1024 * 1024 <? byteLength (stream p))%Z = true /\
   5 * 1024 * 1024 < byteLength (stream p)) \/
  (includes allowedTypes (mimetype p) = true /\ accepted p /\
   (5 * 1024 * 1024 <? byteLength (stream p))%Z = false /\
   byteLength (stream p) <= 5 * 1024 * 1024).
Proof.
  destruct (includes allowedTypes (mimetype p)) eqn:Hi.
  - pose proof (proj1 (includes_allowedTypes _) Hi) as Ha.
    destruct (Z.ltb_spec (5 * 1024 * 1024) (byteLength (stream p))); auto 10.
  - left. split; [done|]. intros Ha.
    apply includes_allowedTypes in Ha. congruence.
Qed.

(** ** The answers of [POST /extract-text], characterised *)

(** X1: the route answers 200 with a text exactly when the upload is of an
    accepted type, within the size limit, and the engine recognizes that
    text and it is not empty; every 200 it sends is of this form. *)
Theorem route_answers_200_iff tempDir path_join recognize
    (req_part : option Part) (s : Sys) :
  (forall text,
     responses (post_extract_text tempDir path_join recognize (incoming req_part)) s
       = [ok_response text] <->
     exists p,
       req_part = Some p /\ accepted p /\
       byteLength (stream p) <= 5 * 1024 * 1024 /\
       outcome (recognize (fs (stored tempDir path_join p s))
                  (stored_path tempDir path_join p) "eng") = inr text /\
       text <> "") /\
  (forall r,
     In r (responses (post_extract_text tempDir path_join recognize
                        (incoming req_part)) s) ->
     status r = 200 -> exists text, text <> "" /\ r = ok_response text).
Proof.
  rewrite route_responses. destruct req_part as [p|].
  - destruct (part_cases p) as [[-> Hd]|[(-> & Ha & -> & Hsz)|(-> & Ha & -> & Hsz)]].
    + split.
      * intros text. split; [discriminate|].
        intros (q & [= <-] & Hq & _). contradiction.
      * intros r [<-|[]]. discriminate.
    + split.
      * intros text. split; [discriminate|].
        intros (q & [= <-] & _ & Hq & _). lia.
      * intros r [<-|[]]. discriminate.
    + destruct (outcome _) as [e|[|c t]] eqn:Ho.
      * split.
        -- intros text. split; [discriminate|].
           intros (q & [= <-] & _ & _ & Hq & _). congruence.
        -- intros r [<-|[]]. discriminate.
      * split.
        -- intros text. split; [discriminate|].
           intros (q & [= <-] & _ & _ & Hq & Hne). congruence.
        -- intros r [<-|[]]. discriminate.
      * split.
        -- intros text. split.
           ++ intros [= <-]. exists p. repeat split; try assumption. discriminate.
           ++ intros (q & [= <-] & _ & _ & Hq & _).
              rewrite Ho in Hq. by injection Hq as <-.
        -- intros r [<-|[]] _. exists (String c t). split; [discriminate|done].
  - split.
    + intros text. split; [discriminate|]. intros (q & [=] & _).
    + intros r [<-|[]]. discriminate.
Qed.



(** ** The disk *)

(** X4: a request to [POST /extract-text] touches no path of the disk other
    than the one its own upload is stored under; a request without a file
    part touches none. *)
Theorem route_touches_only_own_path tempDir path_join recognize
    (req_part : option Part) (s : Sys) (k : string) :
  (forall p, req_part = Some p -> k <> stored_path tempDir path_join p) ->
  disk_after (post_extract_text tempDir path_join recognize (incoming req_part)) s
    !! k = fs s !! k.
Proof.
  intros Hk. rewrite route_disk. destruct req_part as [p|]; [|reflexivity].
  specialize (Hk p eq_refl).
  destruct (includes allowedTypes (mimetype p)); [|reflexivity].
  destruct (5 * 1024 * 1024 <? byteLength (stream p))%Z.
  - by apply lookup_delete_ne.
  - by apply lookup_insert_ne.
Qed.

Lemma route_touches_only_own_path_witness :
  disk_after
    (post_extract_text "/tmp" Sample.join (Sample.engine (inr "HELLO"))
       (incoming (Some Sample.photo)))
    (stored "/tmp" Sample.join Sample.notes Sample.empty_sys)
    !! "/tmp/notes.txt" = Some (stream Sample.notes).
Proof.
  rewrite (route_touches_only_own_path "/tmp" Sample.join
             (Sample.engine (inr "HELLO")) (Some Sample.photo)
             (stored "/tmp" Sample.join Sample.notes Sample.empty_sys)
             "/tmp/notes.txt").
  - apply lookup_insert_eq.
  - intros p [= <-]. discriminate.
Defined.

(** X5: repeating a request: what the first run leaves behind (the temporary
    file, the console lines) does not change the answer to the same
    request sent again, nor the disk. *)
Theorem repeated_request_same_answer tempDir path_join recognize
    (req_part : option Part) (s : Sys) :
  let route := post_extract_text tempDir path_join recognize (incoming req_part) in
  responses route (sys_after route s) = responses route s /\
  disk_after route (sys_after route s) = disk_after route s.
Proof.
  cbv zeta.
  set (route := post_extract_text tempDir path_join recognize (incoming req_part)).
  assert (Hfs : fs (sys_after route s) = disk_after route s) by reflexivity.
  subst route. rewrite !route_responses, !route_disk in *.
  destruct req_part as [p|]; [|done].
  unfold stored. cbn [fs]. rewrite Hfs.
  destruct (includes allowedTypes (mimetype p)); [|done].
  destruct (5 * 1024 * 1024 <? byteLength (stream p))%Z.
  - split; [done|]. apply delete_delete_eq.
  - by rewrite insert_insert_eq.
Qed.

(** ** The upload middleware *)

(** What the upload middleware has done when it passes a request on with
    [req.file] set. *)
Lemma single_attached tempDir path_join
    (req_part : option Part) (s s' : Sys) (req' : Request) (f : File) :
  Multer.single path_join (upload tempDir) (incoming req_part) s = (inr req', s') ->
  file req' = Some f ->
  exists p,
    req_part = Some p /\ accepted p /\
    byteLength (stream p) <= 5 * 1024 * 1024 /\
    f = stored_file tempDir path_join p /\
    size f <= 5 * 1024 * 1024 /\
    fs s' !! path f = Some (stream p).
Proof.
  intros Hrun Hf. destruct req_part as [p|].
  - destruct (part_cases p) as [[Hi Hd]|[(Hi & Ha & Hlt & Hsz)|(Hi & Ha & Hlt & Hsz)]].
    + rewrite single_declined in Hrun by assumption.
      injection Hrun as <- <-. discriminate.
    + rewrite (single_too_large_run tempDir path_join p s Hi Hlt) in Hrun.
      discriminate.
    + rewrite single_stored in Hrun by assumption.
      injection Hrun as <- <-. cbn [file] in Hf. injection Hf as <-.
      exists p. repeat split; try assumption.
      cbn [stored_file path stored fs]. apply lookup_insert_eq.
  - rewrite single_no_part in Hrun. injection Hrun as <- <-. discriminate.
Qed.

(** X6: the handler is only ever given a file of an accepted type and within
    the size limit: when the upload middleware passes a request on with
    [req.file] set, the file comes from a part of type image/jpeg or
    image/png of at most 5 MiB, it is described as stored under the
    temporary directory and its original name, and the disk holds its
    bytes at that path. *)
Theorem attached_file_is_accepted tempDir path_join
    (req_part : option Part) (s s' : Sys) (req' : Request) (f : File) :
  Multer.single path_join (upload tempDir) (incoming req_part) s = (inr req', s') ->
  file req' = Some f ->
  exists p,
    req_part = Some p /\ accepted p /\
    byteLength (stream p) <= 5 * 1024 * 1024 /\
    f = stored_file tempDir path_join p /\
    size f <= 5 * 1024 * 1024 /\
    fs s' !! path f = Some (stream p).
Proof. apply single_attached. Qed.

Lemma attached_file_is_accepted_witness :
  exists p,
    Some Sample.photo = Some p /\ accepted p /\
    byteLength (stream p) <= 5 * 1024 * 1024 /\
    stored_file "/tmp" Sample.join Sample.photo = stored_file "/tmp" Sample.join p /\
    size (stored_file "/tmp" Sample.join Sample.photo) <= 5 * 1024 * 1024 /\
    fs (stored "/tmp" Sample.join Sample.photo Sample.empty_sys)
      !! path (stored_file "/tmp" Sample.join Sample.photo) = Some (stream p).
Proof.
  apply (attached_file_is_accepted "/tmp" Sample.join (Some Sample.photo)
           Sample.empty_sys
           (stored "/tmp" Sample.join Sample.photo Sample.empty_sys)
           {| part := Some Sample.photo;
              file := Some (stored_file "/tmp" Sample.join Sample.photo) |}
           (stored_file "/tmp" Sample.join Sample.photo)).
  - reflexivity.
  - reflexivity.
Defined.

(** ** The adapter's console *)


(** ** Every endpoint answers once *)

(** X8: each endpoint of the application, run on a fresh response object in
    any process state, ends normally and sends exactly one response:
    [GET /] with 200, the 404 middleware with 404, the error middleware
    with 500 for any error, [GET /api] with 200 or 500 whatever the
    outbound call does, and [POST /extract-text] with 200, 400 or 500
    whatever the request and the engine. *)
Theorem every_endpoint_answers_once :
  answers_once get_root [200] /\
  answers_once not_found [404] /\
  (forall err, answers_once (error_middleware err) [500]) /\
  (forall axios_get, answers_once (get_api axios_get) [200; 500]) /\
  (forall tempDir path_join recognize req_part,
     answers_once
       (post_extract_text tempDir path_join recognize (incoming req_part))
       [200; 400; 500]).
Proof.
  repeat split.
  - eexists; split; [reflexivity|]. by left.
  - eexists; split; [reflexivity|]. by left.
  - eexists; split; [reflexivity|]. by left.
  - unfold get_api, try_catch, bind at 1, axios_get_await.
    by destruct (axios_get baseURL).
  - unfold get_api, try_catch, bind at 1, axios_get_await.
    destruct (axios_get baseURL); eexists; (split; [reflexivity|]);
      [by right; left | by left].
  - rewrite route_run. destruct req_part as [p|]; [|done].
    destruct (includes allowedTypes (mimetype p)); [|done].
    destruct (5 * 1024 * 1024 <? byteLength (stream p))%Z; [done|].
    cbv zeta. destruct (outcome _) as [e|text]; [done|].
    by destruct (truthy (Text text)).
  - rewrite route_run. destruct req_part as [p|].
    + destruct (includes allowedTypes (mimetype p)).
      * destruct (5 * 1024 * 1024 <? byteLength (stream p))%Z.
        -- eexists; split; [reflexivity|]. cbn. auto.
        -- cbv zeta. destruct (outcome _) as [e|text].
           ++ eexists; split; [reflexivity|]. cbn. auto.
           ++ destruct (truthy (Text text));
                eexists; (split; [reflexivity|]); cbn; auto.
      * eexists; split; [reflexivity|]. cbn. auto.
    + eexists; split; [reflexivity|]. cbn. auto.
Qed.

(** ** The self-ping *)

(** X9: [pingSelf] never throws and writes exactly one console line.  It
    returns true exactly when the request to http://localhost:5000 is
    answered and the answer's [data.message] can be read, and the line
    then carries that message; otherwise it returns false and the line
    carries the error's message.  The disk is left alone. *)
Theorem pingSelf_reports (Data : Type) (axios_get_data : string -> Error + Data)
    (message_text : Data -> Error + string) (s : Sys) :
  let run := pingSelf Data axios_get_data message_text s in
  fs (snd run) = fs s /\
  match axios_get_data "http://localhost:5000" with
  | inr data =>
      match message_text data with
      | inr text =>
          fst run = inr true /\
          console (snd run) =
            (console s ++ ["Server pinged successfully: " +:+ text])%list
      | inl e =>
          fst run = inr false /\
          console (snd run) =
            (console s ++ ["Error pinging server: " +:+ message e])%list
      end
  | inl e =>
      fst run = inr false /\
      console (snd run) =
        (console s ++ ["Error pinging server: " +:+ message e])%list
  end.
Proof.
  cbv zeta. unfold pingSelf, try_catch, bind, await, ret, throw.
  destruct (axios_get_data "http://localhost:5000") as [e|data].
  - repeat split.
  - cbv beta iota.
    destruct (message_text data) as [e|text]; repeat split.
Qed.

(** ** Two uploads under one name *)

(** X10: when a second upload with the same client-supplied name is stored
    before the first request's handler runs, the first request is answered
    from the second upload's bytes: both handlers give the same run, and
    the file the first one reads holds the second upload. *)
Theorem same_name_uploads_share_answer tempDir path_join recognize
    (p q : Part) (s s1 s2 : Sys) (rp rq : Request) (fp fq : File) :
  Multer.single path_join (upload tempDir) (incoming (Some p)) s = (inr rp, s1) ->
  Multer.single path_join (upload tempDir) (incoming (Some q)) s1 = (inr rq, s2) ->
  file rp = Some fp ->
  file rq = Some fq ->
  originalname p = originalname q ->
  extract_text_handler recognize rp (boot s2) =
    extract_text_handler recognize rq (boot s2) /\
  fs s2 !! path fp = Some (stream q).
Proof.
  intros Hp Hq Hfp Hfq Hn.
  destruct (single_attached _ _ _ _ _ _ _ Hp Hfp)
    as (p' & [= <-] & _ & _ & -> & _ & _).
  destruct (single_attached _ _ _ _ _ _ _ Hq Hfq)
    as (q' & [= <-] & _ & _ & -> & _ & Hdisk).
  assert (Hpath : path (stored_file tempDir path_join p) =
                  path (stored_file tempDir path_join q)).
  { cbn [stored_file path]. unfold stored_path. by rewrite Hn. }
  split.
  - unfold extract_text_handler.
    rewrite (handler_with_file _ rp _ s2 Hfp), (handler_with_file _ rq _ s2 Hfq).
    by rewrite Hpath.
  - by rewrite Hpath.
Qed.

Lemma same_name_uploads_share_answer_witness :
  responses
    (extract_text_handler (Sample.engine (inr "HELLO"))
       {| part := Some Sample.photo;
          file := Some (stored_file "/tmp" Sample.join Sample.photo) |})
    (stored "/tmp" Sample.join Sample.photo'
       (stored "/tmp" Sample.join Sample.photo Sample.empty_sys)) =
  responses
    (extract_text_handler (Sample.engine (inr "HELLO"))
       {| part := Some Sample.photo';
          file := Some (stored_file "/tmp" Sample.join Sample.photo') |})
    (stored "/tmp" Sample.join Sample.photo'
       (stored "/tmp" Sample.join Sample.photo Sample.empty_sys)) /\
  fs (stored "/tmp" Sample.join Sample.photo'
        (stored "/tmp" Sample.join Sample.photo Sample.empty_sys))
    !! path (stored_file "/tmp" Sample.join Sample.photo) =
  Some (stream Sample.photo').
Proof.
  destruct (same_name_uploads_share_answer "/tmp" Sample.join
              (Sample.engine (inr "HELLO")) Sample.photo Sample.photo'
              Sample.empty_sys
              (stored "/tmp" Sample.join Sample.photo Sample.empty_sys)
              (stored "/tmp" Sample.join Sample.photo'
                 (stored "/tmp" Sample.join Sample.photo Sample.empty_sys))
              {| part := Some Sample.photo;
                 file := Some (stored_file "/tmp" Sample.join Sample.photo) |}
              {| part := Some Sample.photo';
                 file := Some (stored_file "/tmp" Sample.join Sample.photo') |}
              (stored_file "/tmp" Sample.join Sample.photo)
              (stored_file "/tmp" Sample.join Sample.photo')
              eq_refl eq_refl eq_refl eq_refl eq_refl) as [Hrun Hdisk].
  split; [|exact Hdisk]. unfold responses. by rewrite Hrun.
Defined.

(** ** Concrete runs of the characterisations *)

Lemma route_answers_200_iff_witness :
  responses
    (post_extract_text "/tmp" Sample.join (Sample.engine (inr "HELLO"))
       (incoming (Some Sample.photo)))
    Sample.empty_sys = [ok_response "HELLO"].
Proof.
  apply (proj1 (route_answers_200_iff "/tmp" Sample.join
                  (Sample.engine (inr "HELLO")) (Some Sample.photo)
                  Sample.empty_sys)).
  exists Sample.photo. repeat split.
  - right; reflexivity.
  - discriminate.
  - discriminate.
Defined.


